(** * User lookup microservice: a shallow embedding of [src/index.ts]

    The service exposes two read-only operations (one user by id, all
    users) over REST and GraphQL, publishes a hand-written OpenAPI
    document, and guards everything with an origin policy.  The
    embedding follows the class [AppServer] method by method. *)

From Stdlib Require Import ZArith String Ascii List Bool Lia.
From Stdlib Require Import Floats.SpecFloat.
From Stdlib Require Import DecimalString DecimalPos DecimalFacts.
Import ListNotations.
Set Warnings "-register-all".
Local Open Scope string_scope.
Local Open Scope Z_scope.

(* ===================================================================== *)
(** ** JavaScript values used by the service *)
(* ===================================================================== *)

Module JS.

(** A JavaScript [number] is an IEEE 754 binary64 value. *)
Definition number : Type := spec_float.

Definition prec : Z := 53.
Definition emax : Z := 1024.

Definition NaN : number := S754_nan.

(** The global [isNaN] applied to a number. *)
Definition isNaN (x : number) : bool :=
  match x with
  | S754_nan => true
  | _ => false
  end.

(** The number nearest to an integer (round to nearest, ties to even). *)
Definition number_of_Z (z : Z) : number := binary_normalize prec emax z 0 false.

(** [===] on numbers: NaN differs from everything, both zeros are equal. *)
Definition number_eqb (x y : number) : bool := SFeqb x y.

(** [Number.isInteger]: a finite number without a fractional part. *)
Definition isInteger (x : number) : bool :=
  match x with
  | S754_zero _ => true
  | S754_finite _ m e =>
      if 0 <=? e then true else Z.pos m mod 2 ^ (- e) =? 0
  | _ => false
  end.

(** Strings are handled as the sequence of their UTF-8 bytes. *)
Definition bytes (s : string) : list Z :=
  map (fun c => Z.of_nat (nat_of_ascii c)) (list_ascii_of_string s).

(** [startsWith p s] removes the prefix [p] from [s] when it is there. *)
Fixpoint startsWith (p s : list Z) : option (list Z) :=
  match p, s with
  | [], _ => Some s
  | a :: p', b :: s' => if a =? b then startsWith p' s' else None
  | _ :: _, [] => None
  end.

(** StrWhiteSpaceChar of ECMAScript (WhiteSpace and LineTerminator), each
    code point given by its UTF-8 encoding: TAB LF VT FF CR SP, U+00A0,
    U+1680, U+2000..U+200A, U+2028, U+2029, U+202F, U+205F, U+3000,
    U+FEFF. *)
Definition strWhiteSpaceChars : list (list Z) :=
  [ [9]; [10]; [11]; [12]; [13]; [32]; [194; 160]; [225; 154; 128];
    [226; 128; 128]; [226; 128; 129]; [226; 128; 130]; [226; 128; 131];
    [226; 128; 132]; [226; 128; 133]; [226; 128; 134]; [226; 128; 135];
    [226; 128; 136]; [226; 128; 137]; [226; 128; 138];
    [226; 128; 168]; [226; 128; 169]; [226; 128; 175]; [226; 129; 159];
    [227; 128; 128]; [239; 187; 191] ].

Fixpoint dropOne (ws : list (list Z)) (s : list Z) : option (list Z) :=
  match ws with
  | [] => None
  | w :: ws' =>
      match startsWith w s with
      | Some r => Some r
      | None => dropOne ws' s
      end
  end.

Fixpoint dropWhile (ws : list (list Z)) (fuel : nat) (s : list Z) : list Z :=
  match fuel with
  | O => s
  | S fuel' =>
      match dropOne ws s with
      | Some r => dropWhile ws fuel' r
      | None => s
      end
  end.

Definition trimStart (s : list Z) : list Z :=
  dropWhile strWhiteSpaceChars (length s) s.

Definition trimEnd (s : list Z) : list Z :=
  rev (dropWhile (map (@rev Z) strWhiteSpaceChars) (length s) (rev s)).

Definition trim (s : list Z) : list Z := trimEnd (trimStart s).

(** The value of a digit in a radix up to 16, when the byte is one. *)
Definition digitOf (radix b : Z) : option Z :=
  let v :=
    if (48 <=? b) && (b <=? 57) then Some (b - 48)
    else if (97 <=? b) && (b <=? 102) then Some (b - 87)
    else if (65 <=? b) && (b <=? 70) then Some (b - 55)
    else None in
  match v with
  | Some d => if d <? radix then Some d else None
  | None => None
  end.

(** The longest prefix of digits (as their values) and what follows. *)
Fixpoint span (radix : Z) (s : list Z) : list Z * list Z :=
  match s with
  | [] => ([], [])
  | b :: s' =>
      match digitOf radix b with
      | Some d => let (ds, r) := span radix s' in (d :: ds, r)
      | None => ([], s)
      end
  end.

Definition valueOf (radix : Z) (ds : list Z) : Z :=
  fold_left (fun acc d => acc * radix + d) ds 0.

Definition isNil {A : Type} (l : list A) : bool :=
  match l with
  | [] => true
  | _ :: _ => false
  end.

(** [p / q] rounded to the nearest number, for [0 < p] and [0 < q]: the
    quotient is taken with enough extra bits and the remainder decides
    the rounding. *)
Definition roundQuotient (neg : bool) (p q : Z) : number :=
  let s := 1100 + Z.log2 q in
  let n := Z.shiftl p s in
  let m := n / q in
  let r := n mod q in
  let loc := if r =? 0 then loc_Exact else loc_Inexact (Z.compare (2 * r) q) in
  binary_round_aux prec emax neg m (- s) loc.

(** The number nearest to [m * 10 ^ e], where [m] is written with
    [ndigits] decimal digits.  Exponents far outside the binary64 range
    are settled without computing the power. *)
Definition roundDecimal (neg : bool) (m : Z) (ndigits : Z) (e : Z) : number :=
  if m =? 0 then S754_zero neg
  else if 400 <? e then S754_infinity neg
  else if e + ndigits <? -400 then S754_zero neg
  else if 0 <=? e then binary_normalize prec emax (if neg then - (m * 10 ^ e) else m * 10 ^ e) 0 neg
  else roundQuotient neg m (10 ^ (- e)).

(** ExponentPart, or nothing, up to the end of the literal. *)
Definition exponentPart (s : list Z) : option Z :=
  match s with
  | [] => Some 0
  | c :: r =>
      if (c =? 101) || (c =? 69) then
        let '(neg, r') :=
          match r with
          | 43 :: t => (false, t)
          | 45 :: t => (true, t)
          | _ => (false, r)
          end in
        let (ds, rest) := span 10 r' in
        if isNil ds || negb (isNil rest) then None
        else Some (if neg then - valueOf 10 ds else valueOf 10 ds)
      else None
  end.

(** StrUnsignedDecimalLiteral. *)
Definition unsignedDecimal (neg : bool) (s : list Z) : number :=
  match startsWith (bytes "Infinity") s with
  | Some [] => S754_infinity neg
  | _ =>
      let (ip, r1) := span 10 s in
      let (fp, r2) :=
        match r1 with
        | 46 :: t => span 10 t
        | _ => ([], r1)
        end in
      if isNil ip && isNil fp then NaN
      else
        match exponentPart r2 with
        | None => NaN
        | Some e =>
            roundDecimal neg (valueOf 10 (ip ++ fp))
              (Z.of_nat (length (ip ++ fp))) (e - Z.of_nat (length fp))
        end
  end.

(** NonDecimalIntegerLiteral: all of [s] must be digits of the radix. *)
Definition nonDecimal (radix : Z) (s : list Z) : number :=
  let (ds, rest) := span radix s in
  if isNil ds || negb (isNil rest) then NaN
  else number_of_Z (valueOf radix ds).

(** StringToNumber of ECMAScript. *)
Definition StringToNumber (str : string) : number :=
  match trim (bytes str) with
  | [] => S754_zero false
  | 48 :: x :: r =>
      if (x =? 120) || (x =? 88) then nonDecimal 16 r
      else if (x =? 111) || (x =? 79) then nonDecimal 8 r
      else if (x =? 98) || (x =? 66) then nonDecimal 2 r
      else unsignedDecimal false (48 :: x :: r)
  | 43 :: r => unsignedDecimal false r
  | 45 :: r => unsignedDecimal true r
  | s => unsignedDecimal false s
  end.

(** The decimal writing of an integer, which is how an integer id
    appears as a path segment ([String(z)]). *)
Definition decimal (z : Z) : string := NilZero.string_of_int (Z.to_int z).

(** The digits of a decimal numeral, most significant first. *)
Fixpoint uintDigits (d : Decimal.uint) : list Z :=
  match d with
  | Decimal.Nil => []
  | Decimal.D0 d' => 0 :: uintDigits d'
  | Decimal.D1 d' => 1 :: uintDigits d'
  | Decimal.D2 d' => 2 :: uintDigits d'
  | Decimal.D3 d' => 3 :: uintDigits d'
  | Decimal.D4 d' => 4 :: uintDigits d'
  | Decimal.D5 d' => 5 :: uintDigits d'
  | Decimal.D6 d' => 6 :: uintDigits d'
  | Decimal.D7 d' => 7 :: uintDigits d'
  | Decimal.D8 d' => 8 :: uintDigits d'
  | Decimal.D9 d' => 9 :: uintDigits d'
  end.

(** [Number(v)] for a value that is a string or [undefined]. *)
Definition Number (v : option string) : number :=
  match v with
  | None => NaN
  | Some s => StringToNumber s
  end.

(** ASCII case folding, as a case-insensitive match applies it. *)
Definition toLowerCase (s : string) : string :=
  string_of_list_ascii
    (map (fun c =>
            let n := nat_of_ascii c in
            if (Nat.leb 65 n && Nat.leb n 90)%bool
            then ascii_of_nat (n + 32) else c)
         (list_ascii_of_string s)).

(** Truthiness of a value that is a string or [undefined]: [!v] holds for
    [undefined] and for the empty string. *)
Definition falsy (v : option string) : bool :=
  match v with
  | None => true
  | Some s => if string_dec s "" then true else false
  end.

End JS.

(* ===================================================================== *)
(** ** JSON documents sent to clients *)
(* ===================================================================== *)

(** Objects keep their keys in insertion order, as [JSON.stringify]
    prints them.  The only numbers the service serialises are integer
    ids. *)
Inductive json : Type :=
  | JNull
  | JBool (b : bool)
  | JNum (n : Z)
  | JStr (s : string)
  | JArr (items : list json)
  | JObj (fields : list (string * json)).

(** Property lookup [o[k]]: the value of the first field named [k]. *)
Fixpoint lookup (k : string) (fields : list (string * json)) : option json :=
  match fields with
  | [] => None
  | (k', v) :: rest => if String.eqb k k' then Some v else lookup k rest
  end.

Definition keys (fields : list (string * json)) : list string := map fst fields.

(* ===================================================================== *)
(** ** Promises and the storage gateway *)
(* ===================================================================== *)

(** How a promise settles. *)
Inductive Settled (A : Type) : Type :=
  | Fulfilled (a : A)
  | Rejected (reason : string).
Arguments Fulfilled {A} a.
Arguments Rejected {A} reason.

(** The values of the type [Int] of the schemas: signed 32-bit
    integers. *)
Definition isInt (z : Z) : bool :=
  (-2147483648 <=? z) && (z <=? 2147483647).

Module User.
(** Modelled from the spec: the [User] model of the Prisma schema
    ([prisma/schema.prisma] is not among the sources).  The table is
    [User(id PRIMARY KEY integer, name text)], the id being an [Int] as
    in [type User { id: Int! name: String! }]; [extra] stands for any
    further column a stored record may carry. *)
Record t : Type := make {
  id : Z;
  name : string;
  extra : list (string * json);
  id_isInt : isInt id = true
}.
End User.

(** The storage reads an asynchronous computation can issue. *)
Inductive Query : Type :=
  | FindUnique (where_id : JS.number)
  | FindMany.

(** The Prisma client as the service consumes it: [$connect],
    [user.findUnique({ where: { id } })] and [user.findMany()].  The
    engine behind it is an external collaborator, so a client is any
    triple of answers. *)
Record PrismaClient : Type := mkPrisma {
  connect : Settled unit;
  findUnique : JS.number -> Settled (option User.t);
  findMany : Settled (list User.t)
}.

(** An [async] computation: the storage reads it issued, in order, and
    how its promise settled. *)
Definition Async (A : Type) : Type := (list Query * Settled A)%type.

Definition ret {A : Type} (a : A) : Async A := ([], Fulfilled a).

Definition bind {A B : Type} (m : Async A) (k : A -> Async B) : Async B :=
  match m with
  | (qs, Fulfilled a) => let (qs', r) := k a in ((qs ++ qs')%list, r)
  | (qs, Rejected e) => (qs, Rejected e)
  end.

Notation "x <- 'await' m ;; k" := (bind m (fun x => k))
  (at level 61, m at next level, right associativity).

Definition queries {A : Type} (m : Async A) : list Query := fst m.
Definition settled {A : Type} (m : Async A) : Settled A := snd m.

(** [this.prisma.user.findUnique({ where: { id } })] *)
Definition prisma_user_findUnique (prisma : PrismaClient) (id : JS.number)
  : Async (option User.t) :=
  ([FindUnique id], findUnique prisma id).

(** [this.prisma.user.findMany()] *)
Definition prisma_user_findMany (prisma : PrismaClient) : Async (list User.t) :=
  ([FindMany], findMany prisma).

(** An in-memory table answering like a connected client: point lookup
    by numeric equality on the id, full scan in table order.  A key that
    is not an integer is outside the contract of the lookup and is
    refused. *)
Definition tableClient (rows : list User.t) : PrismaClient :=
  {| connect := Fulfilled tt;
     findUnique := fun k =>
       if JS.isInteger k then
         Fulfilled (find (fun u => JS.number_eqb (JS.number_of_Z (User.id u)) k) rows)
       else Rejected "Invalid value provided. Expected Int.";
     findMany := Fulfilled rows |}.

(** A client whose connection cannot be established. *)
Definition unreachableClient (reason : string) : PrismaClient :=
  {| connect := Rejected reason;
     findUnique := fun _ => Rejected reason;
     findMany := Rejected reason |}.

(* ===================================================================== *)
(** ** Requests and responses of the HTTP transport *)
(* ===================================================================== *)

Inductive Body : Type :=
  | JsonBody (j : json)
  | HtmlBody (page : string)
  | ViewerBody (doc : json)
  | EmptyBody.

(** The response object [res]: its status code and what was sent. *)
Record Response : Type := mkResponse {
  statusCode : Z;
  sent : option Body
}.

(** A fresh response has status 200 and nothing sent. *)
Definition freshResponse : Response := {| statusCode := 200; sent := None |}.

(** [res.status(code)] *)
Definition status (code : Z) (res : Response) : Response :=
  {| statusCode := code; sent := sent res |}.

(** [res.json(body)] *)
Definition send_json (body : json) (res : Response) : Response :=
  {| statusCode := statusCode res; sent := Some (JsonBody body) |}.

(** The operations of [type Query]: [{ user(id: ...) { ... } }] and
    [{ users { ... } }], each with the fields it selects. *)
Inductive Operation : Type :=
  | QueryUser (id : Z) (selection : list string)
  | QueryUsers (selection : list string).

(** What the service reads of an incoming request: the method, the
    decoded path segments, the [Origin] header, whether a JSON body (if
    any) parses, the route parameters and the GraphQL operation asked
    for. *)
Record Request : Type := mkRequest {
  method : string;
  path : list string;
  headers_origin : option string;
  bodyParses : bool;
  params : list (string * string);
  graphqlOperation : option Operation
}.

(** [req.params[k]], [undefined] when there is no such parameter. *)
Fixpoint param (k : string) (ps : list (string * string)) : option string :=
  match ps with
  | [] => None
  | (k', v) :: rest => if String.eqb k k' then Some v else param k rest
  end.

Definition withParams (ps : list (string * string)) (req : Request) : Request :=
  {| method := method req; path := path req;
     headers_origin := headers_origin req; bodyParses := bodyParses req;
     params := ps; graphqlOperation := graphqlOperation req |}.

(** What a layer of the application does with a request: pass it on
    ([next()]), pass an error on ([next(err)]), or end the response. *)
Inductive Step : Type :=
  | Next
  | NextError (err : string)
  | Done (res : Response).

Definition Middleware : Type := Request -> Response -> Async Step.

(** The layers of the application, in the order the constructor
    registers them. *)
Inductive LayerName : Type :=
  | CorsLayer
  | JsonLayer
  | UserByIdRoute
  | UsersRoute
  | GraphQLLayer
  | SwaggerLayer.

(** A registered layer: when it applies to a request (and with which
    route parameters) and what it does. *)
Record Layer : Type := mkLayer {
  layerName : LayerName;
  matchRequest : Request -> option (list (string * string));
  handle : Middleware
}.

(** [app.use(mw)]: every request. *)
Definition everyRequest (req : Request) : option (list (string * string)) :=
  Some [].

(** Paths are matched without regard to case. *)
Definition segmentIs (segment literal : string) : bool :=
  String.eqb (JS.toLowerCase segment) literal.

(** [app.use(mount, mw)]: every request whose path starts with [mount]. *)
Definition mountedAt (mount : string) (req : Request)
  : option (list (string * string)) :=
  match path req with
  | first :: _ => if segmentIs first mount then Some [] else None
  | [] => None
  end.

(** A GET route also serves HEAD. *)
Definition isGet (req : Request) : bool :=
  String.eqb (method req) "GET" || String.eqb (method req) "HEAD".

(** [app.get('/users/:id', h)] *)
Definition matchUserById (req : Request) : option (list (string * string)) :=
  match path req with
  | [users; id] =>
      if isGet req && segmentIs users "users" && negb (String.eqb id "")
      then Some [("id", id)] else None
  | _ => None
  end.

(** [app.get('/users', h)] *)
Definition matchUsers (req : Request) : option (list (string * string)) :=
  match path req with
  | [users] => if isGet req && segmentIs users "users" then Some [] else None
  | _ => None
  end.

(* ===================================================================== *)
(** ** The class [AppServer] *)
(* ===================================================================== *)

(** *** [configureCors] *)

Definition allowedOrigins : list string :=
  ["http://example.com"; "https://example.com"].

(** [Array.prototype.includes] on strings. *)
Definition includes (l : list string) (x : string) : bool :=
  existsb (String.eqb x) l.

(** The arguments the origin function hands to [callback]. *)
Inductive CallbackArgs : Type :=
  | callback (err : option string) (allow : option bool).

(** The [origin] option given to [cors]:
    [if (!origin || allowedOrigins.includes(origin))]. *)
Definition originPolicy (origin : option string) : CallbackArgs :=
  if JS.falsy origin
     || match origin with
        | Some o => includes allowedOrigins o
        | None => false
        end
  then callback None (Some true)
  else callback (Some "No permitido por CORS") None.

(** The verdict of the policy as a boolean. *)
Definition allows (origin : option string) : bool :=
  match originPolicy origin with
  | callback None (Some true) => true
  | _ => false
  end.

Definition optionsSuccessStatus : Z := 200.

(** The [cors] middleware around the origin function: an error from the
    callback goes to [next(err)]; an allowed preflight (OPTIONS) is ended
    with [optionsSuccessStatus]; anything else goes on. *)
Definition corsMiddleware : Middleware := fun req res =>
  match originPolicy (headers_origin req) with
  | callback (Some err) _ => ret (NextError err)
  | callback None (Some true) =>
      if String.eqb (method req) "OPTIONS"
      then ret (Done {| statusCode := optionsSuccessStatus; sent := Some EmptyBody |})
      else ret Next
  | callback None _ => ret Next
  end.

Definition configureCors (app : list Layer) : list Layer :=
  app ++ [mkLayer CorsLayer everyRequest corsMiddleware].

(** *** [configureMiddlewares] *)

(** [express.json()]: a body that does not parse is passed on as an
    error. *)
Definition jsonMiddleware : Middleware := fun req res =>
  if bodyParses req then ret Next else ret (NextError "entity.parse.failed").

Definition configureMiddlewares (app : list Layer) : list Layer :=
  app ++ [mkLayer JsonLayer everyRequest jsonMiddleware].

(** *** [configureRestRoutes] *)

Section Routes.

Variable prisma : PrismaClient.

(** The handler of [GET /users/:id]. *)
Definition getUserById (req : Request) (res : Response) : Async Response :=
  let id := JS.Number (param "id" (params req)) in
  if JS.isNaN id then
    ret (send_json (JObj [("error", JStr "ID inválido")]) (status 400 res))
  else
    user <- await prisma_user_findUnique prisma id ;;
    match user with
    | Some user =>
        ret (send_json (JObj [("id", JNum (User.id user));
                              ("name", JStr (User.name user))]) res)
    | None =>
        ret (send_json (JObj [("error", JStr "Usuario no encontrado")])
               (status 404 res))
    end.

(** The handler of [GET /users]. *)
Definition getUsers (req : Request) (res : Response) : Async Response :=
  users <- await prisma_user_findMany prisma ;;
  ret (send_json
         (JArr (map (fun u => JObj [("id", JNum (User.id u));
                                    ("name", JStr (User.name u))]) users))
         res).

(** A route handler ends the response it was given. *)
Definition route (h : Request -> Response -> Async Response) : Middleware :=
  fun req res => res' <- await h req res ;; ret (Done res').

Definition configureRestRoutes (app : list Layer) : list Layer :=
  app ++ [mkLayer UserByIdRoute matchUserById (route getUserById);
          mkLayer UsersRoute matchUsers (route getUsers)].

End Routes.

(** *** [configureGraphQL] *)

(** The fields that [type User { id: Int!  name: String! }] declares. *)
Definition schemaUser : list string := ["id"; "name"].

(** The default field resolver: the property of the resolved object
    that has the name of the field. *)
Definition property (u : User.t) (field : string) : json :=
  if String.eqb field "id" then JNum (User.id u)
  else if String.eqb field "name" then JStr (User.name u)
  else match lookup field (User.extra u) with
       | Some v => v
       | None => JNull
       end.

(** A selection in which every field occurs once, first occurrence
    first. *)
Fixpoint collectFields (selection : list string) : list string :=
  match selection with
  | [] => []
  | f :: rest =>
      f :: filter (fun g => negb (String.eqb g f)) (collectFields rest)
  end.

(** The value of a [User] under a selection set. *)
Definition completeUser (selection : list string) (u : User.t) : json :=
  JObj (map (fun f => (f, property u f)) (collectFields selection)).

(** A selection is valid when the schema declares each of its fields. *)
Definition validSelection (selection : list string) : bool :=
  negb (JS.isNil selection) && forallb (includes schemaUser) selection.

(** What an execution yields: [data] (absent when the request was not
    executed) and the errors. *)
Record ExecutionResult : Type := mkResult {
  data : option json;
  errors : list string
}.

(** Running a computation and looking at how it settled. *)
Definition settle {A : Type} (m : Async A) : Async (Settled A) :=
  (queries m, Fulfilled (settled m)).

Section GraphQL.

Variable prisma : PrismaClient.

(** [root.user]: [({ id }) => this.prisma.user.findUnique({ where: { id } })] *)
Definition root_user (id : JS.number) : Async (option User.t) :=
  prisma_user_findUnique prisma id.

(** [root.users]: [() => this.prisma.user.findMany()] *)
Definition root_users : Async (list User.t) :=
  prisma_user_findMany prisma.

(** Executing an operation against the schema with [root] as root value:
    an invalid selection, or an argument [id] that is not an [Int], is
    refused before any resolver runs; a rejected resolver makes its
    (nullable) field null and is reported in [errors]. *)
Definition execute (op : Operation) : Async ExecutionResult :=
  match op with
  | QueryUser id selection =>
      if validSelection selection && isInt id then
        r <- await settle (root_user (JS.number_of_Z id)) ;;
        match r with
        | Fulfilled (Some u) =>
            ret (mkResult (Some (JObj [("user", completeUser selection u)])) [])
        | Fulfilled None =>
            ret (mkResult (Some (JObj [("user", JNull)])) [])
        | Rejected e =>
            ret (mkResult (Some (JObj [("user", JNull)])) [e])
        end
      else ret (mkResult None ["Validation failed"])
  | QueryUsers selection =>
      if validSelection selection then
        r <- await settle root_users ;;
        match r with
        | Fulfilled us =>
            ret (mkResult
                   (Some (JObj [("users", JArr (map (completeUser selection) us))]))
                   [])
        | Rejected e =>
            ret (mkResult (Some (JObj [("users", JNull)])) [e])
        end
      else ret (mkResult None ["Validation failed"])
  end.

(** The response envelope. *)
Definition envelope (r : ExecutionResult) : json :=
  JObj ((match errors r with
         | [] => []
         | es => [("errors", JArr (map JStr es))]
         end)
        ++ (match data r with
            | Some d => [("data", d)]
            | None => []
            end))%list.

(** The endpoint [graphqlHTTP({ schema, rootValue: root, graphiql: true })]:
    a request that carries an operation gets its envelope (400 when it
    was not executed), one that carries none gets the console. *)
Definition graphqlHTTP : Middleware := fun req res =>
  match graphqlOperation req with
  | Some op =>
      r <- await execute op ;;
      ret (Done (send_json (envelope r)
                   (match data r with
                    | Some _ => res
                    | None => status 400 res
                    end)))
  | None =>
      ret (Done {| statusCode := statusCode res;
                   sent := Some (HtmlBody "GraphiQL") |})
  end.

Definition configureGraphQL (app : list Layer) : list Layer :=
  app ++ [mkLayer GraphQLLayer (mountedAt "graphql") graphqlHTTP].

End GraphQL.

(** *** [configureSwagger] *)

Definition refUser : json := JObj [("$ref", JStr "#/components/schemas/User")].

Definition openApiSpec : json :=
  JObj [
    ("openapi", JStr "3.0.3");
    ("info", JObj [
       ("title", JStr "API de Usuarios");
       ("description", JStr "Microservicio REST + GraphQL con Prisma y SQLite");
       ("version", JStr "1.0.0")]);
    ("servers", JArr [JObj [("url", JStr "http://localhost:3000")]]);
    ("paths", JObj [
       ("/users/{id}", JObj [
          ("get", JObj [
             ("summary", JStr "Obtener un usuario por ID");
             ("parameters", JArr [
                JObj [("name", JStr "id");
                      ("in", JStr "path");
                      ("required", JBool true);
                      ("schema", JObj [("type", JStr "integer")])]]);
             ("responses", JObj [
                ("200", JObj [
                   ("description", JStr "Usuario encontrado");
                   ("content", JObj [
                      ("application/json", JObj [("schema", refUser)])])]);
                ("404", JObj [("description", JStr "Usuario no encontrado")])])])]);
       ("/users", JObj [
          ("get", JObj [
             ("summary", JStr "Obtener todos los usuarios");
             ("responses", JObj [
                ("200", JObj [
                   ("description", JStr "Lista de usuarios");
                   ("content", JObj [
                      ("application/json", JObj [
                         ("schema", JObj [("type", JStr "array");
                                          ("items", refUser)])])])])])])])]);
    ("components", JObj [
       ("schemas", JObj [
          ("User", JObj [
             ("type", JStr "object");
             ("properties", JObj [
                ("id", JObj [("type", JStr "integer")]);
                ("name", JObj [("type", JStr "string")])])])])])].

(** [doc.a.b.c]: following property names into nested objects. *)
Fixpoint at_path (ks : list string) (doc : json) : option json :=
  match ks with
  | [] => Some doc
  | k :: rest =>
      match doc with
      | JObj fields =>
          match lookup k fields with
          | Some v => at_path rest v
          | None => None
          end
      | _ => None
      end
  end.

(** The status codes a document declares for an operation. *)
Definition declaredResponses (doc : json) (route verb : string) : list string :=
  match at_path ["paths"; route; verb; "responses"] doc with
  | Some (JObj fields) => keys fields
  | _ => []
  end.

(** [swaggerUi.serve, swaggerUi.setup(openApiSpec)]: the viewer page of
    the document. *)
Definition swaggerMiddleware : Middleware := fun req res =>
  ret (Done {| statusCode := statusCode res; sent := Some (ViewerBody openApiSpec) |}).

Definition configureSwagger (app : list Layer) : list Layer :=
  app ++ [mkLayer SwaggerLayer (mountedAt "api-docs") swaggerMiddleware].

(** *** The constructor and the singleton *)

Record AppServer : Type := mkAppServer {
  app : list Layer;
  prisma : PrismaClient
}.

(** The constructor: [express()] and then the five [configure...] calls
    in their order. *)
Definition new_AppServer (client : PrismaClient) : AppServer :=
  let app := [] in
  let app := configureCors app in
  let app := configureMiddlewares app in
  let app := configureRestRoutes client app in
  let app := configureGraphQL client app in
  let app := configureSwagger app in
  {| app := app; prisma := client |}.

(** [AppServer.getInstance()]: the static [instance] is created on first
    use and returned from then on. *)
Definition getInstance (client : PrismaClient) (instance : option AppServer)
  : AppServer * option AppServer :=
  match instance with
  | Some server => (server, Some server)
  | None => let server := new_AppServer client in (server, Some server)
  end.

(** *** Serving a request *)

(** How a request ends: with a response; with an error handed to
    [next], which the transport turns into a failure of its own; with no
    layer answering; or with the rejected promise of an [async]
    handler. *)
Inductive Outcome : Type :=
  | Responded (res : Response)
  | ErrorPassed (err : string)
  | Unanswered
  | HandlerRejected (reason : string).

(** What serving a request did: the layers that ran, the storage reads,
    and the outcome. *)
Record Served : Type := mkServed {
  ran : list LayerName;
  reads : list Query;
  outcome : Outcome
}.

Definition after (l : LayerName) (qs : list Query) (s : Served) : Served :=
  {| ran := l :: ran s; reads := qs ++ reads s; outcome := outcome s |}.

(** The layers are tried in registration order; one that applies runs,
    and the next ones are tried only when it called [next()]. *)
Fixpoint serve (stack : list Layer) (req : Request) (res : Response) : Served :=
  match stack with
  | [] => mkServed [] [] Unanswered
  | layer :: rest =>
      match matchRequest layer req with
      | None => serve rest req res
      | Some ps =>
          match handle layer (withParams ps req) res with
          | (qs, Fulfilled Next) => after (layerName layer) qs (serve rest req res)
          | (qs, Fulfilled (NextError err)) =>
              mkServed [layerName layer] qs (ErrorPassed err)
          | (qs, Fulfilled (Done res')) =>
              mkServed [layerName layer] qs (Responded res')
          | (qs, Rejected reason) =>
              mkServed [layerName layer] qs (HandlerRejected reason)
          end
      end
  end.

Definition handleRequest (server : AppServer) (req : Request) : Served :=
  serve (app server) req freshResponse.

(** The layers that are route handlers or endpoints, as opposed to the
    policy and the body parser in front of them. *)
Definition isHandler (l : LayerName) : bool :=
  match l with
  | CorsLayer | JsonLayer => false
  | UserByIdRoute | UsersRoute | GraphQLLayer | SwaggerLayer => true
  end.

(** *** [start] and the entry point *)

(** What the process does to the outside. *)
Inductive Effect : Type :=
  | Connect
  | Listen (port : Z)
  | ConsoleLog (msg : string)
  | ConsoleError (msg reason : string)
  | Exit (code : Z).

(** [start(port = 3000)]: connect, then listen and announce the three
    addresses; a failure to connect is logged and ends the process with
    status 1. *)
Definition start (server : AppServer) (port : option Z) : list Effect :=
  let port := match port with Some p => p | None => 3000 end in
  match connect (prisma server) with
  | Fulfilled _ =>
      let host := "http://localhost:" ++ JS.decimal port in
      [Connect; Listen port;
       ConsoleLog ("Servidor corriendo en " ++ host);
       ConsoleLog ("Swagger: " ++ host ++ "/api-docs");
       ConsoleLog ("GraphQL: " ++ host ++ "/graphql")]
  | Rejected err => [Connect; ConsoleError "Error al iniciar:" err; Exit 1]
  end.

(** The entry point: [AppServer.getInstance()] and [server.start(3000)]. *)
Definition main (client : PrismaClient) : list Effect :=
  let (server, _) := getInstance client None in
  start server (Some 3000).

(** The exit status of a run, when the process was made to exit. *)
Fixpoint exitStatus (effects : list Effect) : option Z :=
  match effects with
  | [] => None
  | Exit code :: _ => Some code
  | _ :: rest => exitStatus rest
  end.

(** The ports on which a run started listening. *)
Fixpoint listening (effects : list Effect) : list Z :=
  match effects with
  | [] => []
  | Exit _ :: _ => []
  | Listen port :: rest => port :: listening rest
  | _ :: rest => listening rest
  end.

(* ===================================================================== *)
(** ** Sample data *)
(* ===================================================================== *)

Definition ada : User.t :=
  User.make 1 "Ada" [("email", JStr "ada@example.com")] eq_refl.

Definition grace : User.t := User.make 16 "Grace" [] eq_refl.

Definition sampleTable : list User.t := [ada; grace].

Definition get (segments : list string) (origin : option string) : Request :=
  {| method := "GET"; path := segments; headers_origin := origin;
     bodyParses := true; params := []; graphqlOperation := None |}.

Definition withId (segment : string) : Request :=
  withParams [("id", segment)] (get ["users"; segment] None).

Definition withOperation (op : Operation) (origin : option string) : Request :=
  {| method := "POST"; path := ["graphql"]; headers_origin := origin;
     bodyParses := true; params := []; graphqlOperation := Some op |}.

(* ===================================================================== *)
(** ** Readings of runs and of the document *)
(* ===================================================================== *)

(** A run of calls of [AppServer.getInstance()], the static field being
    threaded from call to call: the servers returned, in order, and the
    field at the end. *)
Fixpoint getInstances (clients : list PrismaClient) (instance : option AppServer)
  : list AppServer * option AppServer :=
  match clients with
  | [] => ([], instance)
  | client :: rest =>
      let (server, instance') := getInstance client instance in
      let (servers, final) := getInstances rest instance' in
      (server :: servers, final)
  end.



(** The property names a document declares for one of its component
    schemas. *)
Definition declaredProperties (doc : json) (schema : string) : list string :=
  match at_path ["components"; "schemas"; schema; "properties"] doc with
  | Some (JObj fields) => keys fields
  | _ => []
  end.

(** The fields an operation selects. *)
Definition selectionOf (op : Operation) : list string :=
  match op with
  | QueryUser _ selection => selection
  | QueryUsers selection => selection
  end.

(** A request of any method. *)
Definition request (verb : string) (segments : list string)
    (origin : option string) : Request :=
  {| method := verb; path := segments; headers_origin := origin;
     bodyParses := true; params := []; graphqlOperation := None |}.

(* ===================================================================== *)
(** ** The wording of the specification, for comparison *)
(* ===================================================================== *)

(** "An integer" as a path segment: decimal digits, possibly after a
    minus sign. *)
Definition integerSegment (segment : string) : bool :=
  let digits := forallb (fun b => (48 <=? b) && (b <=? 57)) in
  match JS.bytes segment with
  | [] => false
  | 45 :: d :: ds => digits (d :: ds)
  | ds => digits ds
  end.

(** "Absent or string-equal to one of the two fixed strings". *)
Definition absentOrListed (origin : option string) : bool :=
  match origin with
  | None => true
  | Some o => String.eqb o "http://example.com" || String.eqb o "https://example.com"
  end.

(* ===================================================================== *)
(** ** Numbers: no integer and no quotient rounds to NaN *)
(* ===================================================================== *)

Section Rounding.

Lemma shr_1_nonneg (mrs : shr_record) :
  0 <= shr_m mrs -> 0 <= shr_m (shr_1 mrs).
Proof.
  destruct mrs as [m r s]; simpl.
  destruct m as [|p|p]; simpl; intros H.
  - lia.
  - destruct p; simpl; lia.
  - lia.
Qed.

Lemma iter_pos_invariant {A : Type} (P : A -> Prop) (f : A -> A) :
  (forall x, P x -> P (f x)) ->
  forall n x, P x -> P (iter_pos f n x).
Proof.
  intros Hf n; induction n as [n IH|n IH|]; intros x Hx; simpl.
  - apply IH, IH, Hf, Hx.
  - apply IH, IH, Hx.
  - apply Hf, Hx.
Qed.

Lemma shr_nonneg (mrs : shr_record) (e n : Z) :
  0 <= shr_m mrs -> 0 <= shr_m (fst (shr mrs e n)).
Proof.
  intros H; unfold shr; destruct n as [|p|p]; simpl; auto.
  apply (iter_pos_invariant (fun r => 0 <= shr_m r)); auto using shr_1_nonneg.
Qed.

Lemma shr_record_of_loc_m (m : Z) (l : location) :
  shr_m (shr_record_of_loc m l) = m.
Proof. destruct l as [|[]]; reflexivity. Qed.

Lemma shr_fexp_nonneg (m e : Z) (l : location) :
  0 <= m -> 0 <= shr_m (fst (shr_fexp JS.prec JS.emax m e l)).
Proof.
  intros H; unfold shr_fexp; apply shr_nonneg.
  rewrite shr_record_of_loc_m; exact H.
Qed.

Lemma round_nearest_even_nonneg (m : Z) (l : location) :
  0 <= m -> 0 <= round_nearest_even m l.
Proof.
  intros H; unfold round_nearest_even.
  destruct l as [|[]]; try destruct (Z.even m); lia.
Qed.

Lemma binary_round_aux_isNaN (neg : bool) (m e : Z) (l : location) :
  0 <= m -> JS.isNaN (binary_round_aux JS.prec JS.emax neg m e l) = false.
Proof.
  intros H; unfold binary_round_aux.
  pose proof (shr_fexp_nonneg m e l H) as H1.
  destruct (shr_fexp JS.prec JS.emax m e l) as [mrs' e']; simpl in H1.
  pose proof (shr_fexp_nonneg _ e' loc_Exact
                (round_nearest_even_nonneg _ (loc_of_shr_record mrs') H1)) as H2.
  destruct (shr_fexp JS.prec JS.emax _ e' loc_Exact) as [mrs'' e'']; simpl in H2.
  destruct (shr_m mrs'') as [|p|p]; simpl.
  - reflexivity.
  - destruct (_ <=? _); reflexivity.
  - lia.
Qed.

Lemma binary_round_isNaN (neg : bool) (m : positive) (e : Z) :
  JS.isNaN (binary_round JS.prec JS.emax neg m e) = false.
Proof.
  unfold binary_round.
  destruct (shl_align m e _) as [mz ez].
  apply binary_round_aux_isNaN; lia.
Qed.

Lemma binary_normalize_isNaN (m e : Z) (szero : bool) :
  JS.isNaN (binary_normalize JS.prec JS.emax m e szero) = false.
Proof.
  destruct m; simpl; auto using binary_round_isNaN.
Qed.

(** An integer id, as a number, passes the [isNaN] guard. *)
Lemma number_of_Z_isNaN (z : Z) : JS.isNaN (JS.number_of_Z z) = false.
Proof. apply binary_normalize_isNaN. Qed.

End Rounding.

(* ===================================================================== *)
(** ** Numbers: the decimal writing of an integer denotes it *)
(* ===================================================================== *)

Section Decimal.

Lemma bytes_digits (d : Decimal.uint) :
  JS.bytes (NilEmpty.string_of_uint d) = map (fun v => v + 48) (JS.uintDigits d).
Proof.
  induction d; simpl; try reflexivity; unfold JS.bytes in *; simpl;
    rewrite IHd; reflexivity.
Qed.

Lemma span_digits (d : Decimal.uint) :
  JS.span 10 (map (fun v => v + 48) (JS.uintDigits d)) = (JS.uintDigits d, []).
Proof.
  induction d; simpl; try reflexivity; rewrite IHd; reflexivity.
Qed.

Lemma fold_digits_acc (d : Decimal.uint) (acc : positive) :
  fold_left (fun a v => a * 10 + v) (JS.uintDigits d) (Z.pos acc)
  = Z.pos (Pos.of_uint_acc d acc).
Proof.
  revert acc; induction d; intros acc;
    cbn [JS.uintDigits fold_left Pos.of_uint_acc]; try reflexivity;
    match goal with
    | |- fold_left _ _ ?a = Z.pos (Pos.of_uint_acc _ ?b) =>
        replace a with (Z.pos b) by lia; apply IHd
    end.
Qed.

Lemma valueOf_digits (d : Decimal.uint) :
  JS.valueOf 10 (JS.uintDigits d) = Z.of_N (Pos.of_uint d).
Proof.
  unfold JS.valueOf; induction d;
    cbn [JS.uintDigits fold_left Pos.of_uint]; try reflexivity; try exact IHd;
    apply fold_digits_acc.
Qed.

Lemma valueOf_to_uint (p : positive) :
  JS.valueOf 10 (JS.uintDigits (Pos.to_uint p)) = Z.pos p.
Proof.
  rewrite valueOf_digits, DecimalPos.Unsigned.of_to; reflexivity.
Qed.

(** The numeral of a positive number starts with a digit other than 0. *)
Lemma to_uint_head (p : positive) :
  match Pos.to_uint p with
  | Decimal.Nil | Decimal.D0 _ => False
  | _ => True
  end.
Proof.
  pose proof (DecimalPos.Unsigned.to_of (Pos.to_uint p)) as H.
  rewrite DecimalPos.Unsigned.of_to in H; simpl in H.
  pose proof (DecimalPos.Unsigned.to_uint_nonnil p) as Hnil.
  pose proof (DecimalPos.Unsigned.to_uint_nonzero p) as Hzero.
  destruct (Pos.to_uint p) as [|d|d|d|d|d|d|d|d|d|d]; try exact I.
  - congruence.
  - rewrite unorm_D0 in H; unfold Decimal.unorm in H.
    pose proof (nzhead_nonzero d d) as Hnz.
    destruct (Decimal.nzhead d); congruence.
Qed.

(** No white space starts, or ends, with a byte between [-] and [9]. *)
Lemma dropOne_plain (b : Z) (r : list Z) :
  45 <= b <= 57 ->
  JS.dropOne JS.strWhiteSpaceChars (b :: r) = None
  /\ JS.dropOne (map (@rev Z) JS.strWhiteSpaceChars) (b :: r) = None.
Proof.
  intros Hb.
  assert (b = 45 \/ b = 46 \/ b = 47 \/ b = 48 \/ b = 49 \/ b = 50 \/ b = 51
          \/ b = 52 \/ b = 53 \/ b = 54 \/ b = 55 \/ b = 56 \/ b = 57) as Hcases
    by lia.
  repeat (destruct Hcases as [->|Hcases]; [split; reflexivity|]).
  subst b; split; reflexivity.
Qed.

Lemma dropWhile_plain (ws : list (list Z)) (fuel : nat) (s : list Z) :
  JS.dropOne ws [] = None ->
  (forall b r, 45 <= b <= 57 -> JS.dropOne ws (b :: r) = None) ->
  Forall (fun b => 45 <= b <= 57) s ->
  JS.dropWhile ws fuel s = s.
Proof.
  intros Hnil Hws Hs; destruct fuel as [|fuel]; [reflexivity|].
  destruct Hs as [|b r Hb _]; cbn [JS.dropWhile].
  - rewrite Hnil; reflexivity.
  - rewrite (Hws b r Hb); reflexivity.
Qed.

(** Trimming leaves a text of such bytes as it is. *)
Lemma trim_plain (s : list Z) :
  Forall (fun b => 45 <= b <= 57) s -> JS.trim s = s.
Proof.
  intros Hs; unfold JS.trim, JS.trimStart, JS.trimEnd.
  rewrite (dropWhile_plain JS.strWhiteSpaceChars (length s) s eq_refl
             (fun b r Hb => proj1 (dropOne_plain b r Hb)) Hs).
  rewrite (dropWhile_plain (map (@rev Z) JS.strWhiteSpaceChars) (length s) (rev s)
             eq_refl (fun b r Hb => proj2 (dropOne_plain b r Hb))
             (Forall_rev Hs)).
  apply rev_involutive.
Qed.

Lemma digits_plain (d : Decimal.uint) :
  Forall (fun b => 45 <= b <= 57) (map (fun v => v + 48) (JS.uintDigits d)).
Proof.
  induction d; simpl; constructor; try assumption; lia.
Qed.

Lemma unsignedDecimal_digits (neg : bool) (d : Decimal.uint) :
  d <> Decimal.Nil ->
  JS.unsignedDecimal neg (map (fun v => v + 48) (JS.uintDigits d))
  = JS.roundDecimal neg (JS.valueOf 10 (JS.uintDigits d))
      (Z.of_nat (length (JS.uintDigits d))) 0.
Proof.
  intros Hd; unfold JS.unsignedDecimal.
  assert (JS.startsWith (JS.bytes "Infinity")
            (map (fun v => v + 48) (JS.uintDigits d)) = None) as ->
    by (destruct d; reflexivity).
  rewrite span_digits, List.app_nil_r.
  destruct d; try contradiction; reflexivity.
Qed.

Lemma roundDecimal_integer (neg : bool) (p : positive) (n : Z) :
  0 <= n ->
  JS.roundDecimal neg (Z.pos p) n 0
  = binary_normalize JS.prec JS.emax (if neg then Z.neg p else Z.pos p) 0 neg.
Proof.
  intros Hn; unfold JS.roundDecimal.
  change (Z.pos p =? 0) with false; change (400 <? 0) with false.
  destruct (Z.ltb_spec (0 + n) (-400)) as [H|_]; [lia|].
  change (0 <=? 0) with true; cbv iota.
  change (10 ^ 0) with 1; rewrite Z.mul_1_r.
  destruct neg; reflexivity.
Qed.

(** The decimal writing of an integer converts to that integer: the
    segment [String(z)] denotes [z]. *)
Lemma Number_decimal (z : Z) :
  JS.Number (Some (JS.decimal z)) = JS.number_of_Z z.
Proof.
  destruct z as [|p|p]; [reflexivity| |];
    unfold JS.Number, JS.StringToNumber, JS.decimal, Z.to_int,
      NilZero.string_of_int;
    pose proof (to_uint_head p) as Hhead;
    assert (Pos.to_uint p <> Decimal.Nil) as Hnil
      by apply DecimalPos.Unsigned.to_uint_nonnil;
    assert (NilZero.string_of_uint (Pos.to_uint p)
            = NilEmpty.string_of_uint (Pos.to_uint p)) as ->
      by (destruct (Pos.to_uint p); [contradiction|reflexivity..]).
  - rewrite bytes_digits, (trim_plain _ (digits_plain _)).
    transitivity (JS.unsignedDecimal false
                    (map (fun v => v + 48) (JS.uintDigits (Pos.to_uint p)))).
    + destruct (Pos.to_uint p); try contradiction; reflexivity.
    + rewrite (unsignedDecimal_digits false _ Hnil), valueOf_to_uint.
      apply (roundDecimal_integer false p), Nat2Z.is_nonneg.
  - change (JS.bytes (String "-" ?s)) with (45 :: JS.bytes s).
    rewrite bytes_digits.
    rewrite (trim_plain (45 :: _)) by (constructor; [lia|apply digits_plain]).
    cbv iota.
    rewrite (unsignedDecimal_digits true _ Hnil), valueOf_to_uint.
    rewrite (roundDecimal_integer true p) by apply Nat2Z.is_nonneg.
    reflexivity.
Qed.

End Decimal.

(* ===================================================================== *)
(** ** The origin policy *)
(* ===================================================================== *)

Section OriginPolicy.

Lemma includes_allowedOrigins (o : string) :
  includes allowedOrigins o = true <->
  o = "http://example.com" \/ o = "https://example.com".
Proof.
  unfold includes, allowedOrigins; simpl.
  rewrite !orb_true_iff, !String.eqb_eq.
  intuition discriminate.
Qed.

Lemma falsy_spec (origin : option string) :
  JS.falsy origin = true <-> origin = None \/ origin = Some "".
Proof.
  destruct origin as [o|]; simpl.
  - destruct (string_dec o "") as [->|Hne]; split; intros H; auto.
    + discriminate.
    + destruct H as [H|H]; [discriminate | injection H as ->; contradiction].
  - split; auto.
Qed.

(** The policy has two answers, and [allows] tells which. *)
Lemma originPolicy_cases (origin : option string) :
  originPolicy origin =
    if allows origin then callback None (Some true)
    else callback (Some "No permitido por CORS") None.
Proof.
  unfold allows, originPolicy.
  destruct (JS.falsy origin || _); reflexivity.
Qed.

(** C2, as the code has it: the policy allows a request exactly when its
    origin is absent, is the empty string, or is string-equal to
    [http://example.com] or [https://example.com]; every other origin is
    answered with the error [No permitido por CORS]. *)
Theorem originPolicy_allows_exactly (origin : option string) :
  (allows origin = true <->
     origin = None \/ origin = Some ""
     \/ origin = Some "http://example.com"
     \/ origin = Some "https://example.com")
  /\ (allows origin = false <->
      originPolicy origin = callback (Some "No permitido por CORS") None).
Proof.
  split.
  - unfold allows, originPolicy.
    destruct (JS.falsy origin || _) eqn:E.
    + split; [intros _|reflexivity].
      apply orb_true_iff in E as [E|E].
      * apply falsy_spec in E; tauto.
      * destruct origin as [o|]; [|discriminate].
        apply includes_allowedOrigins in E as [->| ->]; tauto.
    + split; [discriminate|intros H].
      apply orb_false_iff in E as [E1 E2].
      assert (JS.falsy origin = true \/ includes allowedOrigins
                (match origin with Some o => o | None => "" end) = true) as [F|F].
      { destruct H as [->|[->|[->| ->]]]; simpl; auto. }
      * congruence.
      * destruct origin as [o|]; [congruence|].
        simpl in E1; discriminate.
  - rewrite originPolicy_cases.
    destruct (allows origin); split; intros H; try reflexivity; discriminate.
Qed.

(** C2 as worded fails on the empty origin: it is neither absent nor one
    of the two listed strings, and the policy allows it. *)
Lemma empty_origin_is_allowed :
  ~ (forall origin : option string,
       allows origin = true <-> absentOrListed origin = true).
Proof.
  intros H.
  destruct (H (Some "")) as [H1 _].
  specialize (H1 eq_refl); discriminate.
Qed.

End OriginPolicy.

(* ===================================================================== *)
(** ** The REST handlers *)
(* ===================================================================== *)

Section Rest.

Variable prisma : PrismaClient.

(** C1, as the code has it: for every path segment that [Number] turns
    into NaN (such as [abc]), the handler of [GET /users/:id] answers 400
    with the payload [{ error: 'ID inválido' }] and issues no storage
    read. *)
Theorem getUserById_rejects_NaN (req : Request) (res : Response) :
  JS.isNaN (JS.Number (param "id" (params req))) = true ->
  getUserById prisma req res =
    ([], Fulfilled {| statusCode := 400;
                      sent := Some (JsonBody (JObj [("error", JStr "ID inválido")])) |}).
Proof.
  intros H; unfold getUserById; rewrite H; reflexivity.
Qed.

(** Every other segment is looked up: the handler reads storage once,
    with the number the segment converts to. *)
Lemma getUserById_reads_storage (req : Request) (res : Response) :
  JS.isNaN (JS.Number (param "id" (params req))) = false ->
  queries (getUserById prisma req res)
  = [FindUnique (JS.Number (param "id" (params req)))].
Proof.
  intros H; unfold getUserById; rewrite H.
  unfold bind, prisma_user_findUnique, queries.
  destruct (findUnique prisma _) as [[u|]|e]; reflexivity.
Qed.

(** The handler answers 400 only in that case. *)
Lemma getUserById_400_only_for_NaN (req : Request) (res : Response) :
  settled (getUserById prisma req freshResponse) = Fulfilled res ->
  statusCode res = 400 ->
  JS.isNaN (JS.Number (param "id" (params req))) = true.
Proof.
  unfold getUserById.
  destruct (JS.isNaN (JS.Number (param "id" (params req)))); [reflexivity|].
  unfold bind, prisma_user_findUnique, settled.
  destruct (findUnique prisma _) as [[user|]|reason]; simpl; intros Hres Hstatus;
    try discriminate; injection Hres as <-; discriminate.
Qed.

(** A segment that converts to a number [n] is answered from what
    [findUnique] says about [n]. *)
Lemma getUserById_answer (req : Request) (res : Response) (n : JS.number)
    (answer : option User.t) :
  JS.Number (param "id" (params req)) = n ->
  JS.isNaN n = false ->
  findUnique prisma n = Fulfilled answer ->
  getUserById prisma req res =
    ([FindUnique n],
     Fulfilled
       match answer with
       | Some user =>
           send_json (JObj [("id", JNum (User.id user));
                            ("name", JStr (User.name user))]) res
       | None =>
           send_json (JObj [("error", JStr "Usuario no encontrado")])
             (status 404 res)
       end).
Proof.
  intros Hseg Hnum Hanswer; unfold getUserById.
  rewrite Hseg, Hnum.
  unfold bind, prisma_user_findUnique; rewrite Hanswer.
  destruct answer; reflexivity.
Qed.

(** A request for the id [z] carries a segment that converts to [z]. *)
Lemma segment_denotes (req : Request) (z : Z) :
  param "id" (params req) = Some (JS.decimal z) ->
  JS.Number (param "id" (params req)) = JS.number_of_Z z.
Proof. intros ->; apply Number_decimal. Qed.

(** The handler of [GET /users] maps the projection over what
    [findMany] returned. *)
Lemma getUsers_answer (req : Request) (res : Response) (users : list User.t) :
  findMany prisma = Fulfilled users ->
  getUsers prisma req res =
    ([FindMany],
     Fulfilled
       (send_json
          (JArr (map (fun u => JObj [("id", JNum (User.id u));
                                     ("name", JStr (User.name u))]) users))
          res)).
Proof.
  intros Hall; unfold getUsers, bind, prisma_user_findMany.
  rewrite Hall; reflexivity.
Qed.

(** C3: for every integer id [z] that storage holds, the handler of
    [GET /users/:id], called with [z] as the segment, answers 200 with
    the body [{ id, name }] of the stored record and nothing else of
    it. *)
Theorem getUserById_found (req : Request) (z : Z) (user : User.t) :
  param "id" (params req) = Some (JS.decimal z) ->
  findUnique prisma (JS.number_of_Z z) = Fulfilled (Some user) ->
  getUserById prisma req freshResponse =
    ([FindUnique (JS.number_of_Z z)],
     Fulfilled {| statusCode := 200;
                  sent := Some (JsonBody (JObj [("id", JNum (User.id user));
                                                ("name", JStr (User.name user))])) |}).
Proof.
  intros Hseg Hfound.
  apply (getUserById_answer req freshResponse _ _ (segment_denotes req z Hseg)
           (number_of_Z_isNaN z) Hfound).
Qed.

(** C4: for every integer id [z] that storage does not hold, the handler
    of [GET /users/:id] answers 404 with the payload
    [{ error: 'Usuario no encontrado' }]. *)
Theorem getUserById_not_found (req : Request) (z : Z) :
  param "id" (params req) = Some (JS.decimal z) ->
  findUnique prisma (JS.number_of_Z z) = Fulfilled None ->
  getUserById prisma req freshResponse =
    ([FindUnique (JS.number_of_Z z)],
     Fulfilled {| statusCode := 404;
                  sent := Some (JsonBody (JObj [("error", JStr "Usuario no encontrado")])) |}).
Proof.
  intros Hseg Habsent.
  apply (getUserById_answer req freshResponse _ _ (segment_denotes req z Hseg)
           (number_of_Z_isNaN z) Habsent).
Qed.

(** C5: whatever storage holds, the handler of [GET /users] answers 200
    with a JSON array that has one element per stored record, in the
    order the gateway returned them, each element being [{ id, name }]
    of its record. *)
Theorem getUsers_projects_every_record (req : Request) (users : list User.t) :
  findMany prisma = Fulfilled users ->
  exists items : list json,
    getUsers prisma req freshResponse =
      ([FindMany],
       Fulfilled {| statusCode := 200; sent := Some (JsonBody (JArr items)) |})
    /\ length items = length users
    /\ forall (i : nat) (u : User.t),
         nth_error users i = Some u ->
         nth_error items i =
           Some (JObj [("id", JNum (User.id u)); ("name", JStr (User.name u))]).
Proof.
  intros Hall.
  exists (map (fun u => JObj [("id", JNum (User.id u));
                              ("name", JStr (User.name u))]) users).
  split; [|split].
  - rewrite (getUsers_answer req freshResponse users Hall); reflexivity.
  - apply length_map.
  - intros i u Hi.
    apply (map_nth_error (fun u => JObj [("id", JNum (User.id u));
                                         ("name", JStr (User.name u))]) i users Hi).
Qed.

End Rest.

(** C1 as worded fails on the segment [0x10]: it is not an integer in
    the spec's sense, yet [Number] reads it as 16, the handler looks 16
    up and answers 200 with the record it finds. *)
Lemma hex_segment_is_looked_up :
  ~ (forall (prisma : PrismaClient) (req : Request) (segment : string),
       param "id" (params req) = Some segment ->
       integerSegment segment = false ->
       queries (getUserById prisma req freshResponse) = []
       /\ exists body : json,
            settled (getUserById prisma req freshResponse) =
              Fulfilled {| statusCode := 400; sent := Some (JsonBody body) |}).
Proof.
  intros H.
  destruct (H (tableClient sampleTable) (withId "0x10") "0x10" eq_refl eq_refl)
    as [Hreads _].
  vm_compute in Hreads; discriminate.
Qed.

(** What the handler does with [0x10] and with [1.5] on the sample
    table: both reach storage, the first as the id 16, the second as the
    number 1.5. *)
Example getUserById_hex :
  getUserById (tableClient sampleTable) (withId "0x10") freshResponse =
    ([FindUnique (JS.number_of_Z 16)],
     Fulfilled {| statusCode := 200;
                  sent := Some (JsonBody (JObj [("id", JNum 16);
                                                ("name", JStr "Grace")])) |}).
Proof. vm_compute; reflexivity. Qed.

Example getUserById_fraction (prisma : PrismaClient) :
  queries (getUserById prisma (withId "1.5") freshResponse) =
    [FindUnique (S754_finite false 6755399441055744 (-52))].
Proof. apply (getUserById_reads_storage prisma (withId "1.5") freshResponse); reflexivity. Qed.

Lemma getUserById_rejects_NaN_witness :
  JS.isNaN (JS.Number (param "id" (params (withId "abc")))) = true
  /\ getUserById (tableClient sampleTable) (withId "abc") freshResponse =
       ([], Fulfilled {| statusCode := 400;
                         sent := Some (JsonBody (JObj [("error", JStr "ID inválido")])) |}).
Proof.
  split; [reflexivity|].
  apply (getUserById_rejects_NaN (tableClient sampleTable) (withId "abc") freshResponse).
  reflexivity.
Defined.

Lemma getUserById_found_witness :
  param "id" (params (withId "1")) = Some (JS.decimal 1)
  /\ findUnique (tableClient sampleTable) (JS.number_of_Z 1) = Fulfilled (Some ada)
  /\ getUserById (tableClient sampleTable) (withId "1") freshResponse =
       ([FindUnique (JS.number_of_Z 1)],
        Fulfilled {| statusCode := 200;
                     sent := Some (JsonBody (JObj [("id", JNum 1);
                                                   ("name", JStr "Ada")])) |}).
Proof.
  split; [vm_compute; reflexivity|].
  split; [vm_compute; reflexivity|].
  apply (getUserById_found (tableClient sampleTable) (withId "1") 1 ada);
    vm_compute; reflexivity.
Defined.

Lemma getUserById_not_found_witness :
  param "id" (params (withId "99")) = Some (JS.decimal 99)
  /\ findUnique (tableClient sampleTable) (JS.number_of_Z 99) = Fulfilled None
  /\ getUserById (tableClient sampleTable) (withId "99") freshResponse =
       ([FindUnique (JS.number_of_Z 99)],
        Fulfilled {| statusCode := 404;
                     sent := Some (JsonBody (JObj [("error", JStr "Usuario no encontrado")])) |}).
Proof.
  split; [vm_compute; reflexivity|].
  split; [vm_compute; reflexivity|].
  apply (getUserById_not_found (tableClient sampleTable) (withId "99") 99);
    vm_compute; reflexivity.
Defined.

Lemma getUsers_projects_every_record_witness :
  findMany (tableClient sampleTable) = Fulfilled sampleTable
  /\ exists items : list json,
       getUsers (tableClient sampleTable) (get ["users"] None) freshResponse =
         ([FindMany],
          Fulfilled {| statusCode := 200; sent := Some (JsonBody (JArr items)) |})
       /\ length items = length sampleTable
       /\ forall (i : nat) (u : User.t),
            nth_error sampleTable i = Some u ->
            nth_error items i =
              Some (JObj [("id", JNum (User.id u)); ("name", JStr (User.name u))]).
Proof.
  split; [reflexivity|].
  apply (getUsers_projects_every_record (tableClient sampleTable)
           (get ["users"] None) sampleTable).
  reflexivity.
Defined.

(* ===================================================================== *)
(** ** The GraphQL resolvers *)
(* ===================================================================== *)

Section Resolvers.

Variable prisma : PrismaClient.

(** A valid [user] query whose resolver fulfils: one storage read, no
    error, and the record under the selection (or null). *)
Lemma execute_user (z : Z) (selection : list string) (answer : option User.t) :
  validSelection selection = true ->
  isInt z = true ->
  findUnique prisma (JS.number_of_Z z) = Fulfilled answer ->
  execute prisma (QueryUser z selection)
  = ([FindUnique (JS.number_of_Z z)],
     Fulfilled
       (mkResult
          (Some (JObj [("user", match answer with
                                | Some u => completeUser selection u
                                | None => JNull
                                end)]))
          [])).
Proof.
  intros Hsel Hint Hanswer; unfold execute; rewrite Hsel, Hint.
  unfold settle, root_user, prisma_user_findUnique, bind, queries, settled; simpl.
  rewrite Hanswer; destruct answer; reflexivity.
Qed.

(** A valid [users] query whose resolver fulfils: one storage read, no
    error, and every record under the selection, in order. *)
Lemma execute_users (selection : list string) (users : list User.t) :
  validSelection selection = true ->
  findMany prisma = Fulfilled users ->
  execute prisma (QueryUsers selection)
  = ([FindMany],
     Fulfilled
       (mkResult
          (Some (JObj [("users", JArr (map (completeUser selection) users))]))
          [])).
Proof.
  intros Hsel Hall; unfold execute; rewrite Hsel.
  unfold settle, root_users, prisma_user_findMany, bind, queries, settled; simpl.
  rewrite Hall; reflexivity.
Qed.

(** C7: for every [Int] id, [root.user] hands back what [findUnique]
    answered, unchanged: the stored record for an id storage holds and
    null for one it does not; under a valid selection the executor then
    reports the record's fields, or [user: null] with no error. *)
Theorem root_user_forwards (z : Z) (selection : list string)
    (answer : option User.t) :
  validSelection selection = true ->
  isInt z = true ->
  findUnique prisma (JS.number_of_Z z) = Fulfilled answer ->
  root_user prisma (JS.number_of_Z z)
  = ([FindUnique (JS.number_of_Z z)], Fulfilled answer)
  /\ execute prisma (QueryUser z selection)
     = ([FindUnique (JS.number_of_Z z)],
        Fulfilled
          (mkResult
             (Some (JObj [("user", match answer with
                                   | Some u => completeUser selection u
                                   | None => JNull
                                   end)]))
             [])).
Proof.
  intros Hsel Hint Hanswer; split.
  - unfold root_user, prisma_user_findUnique; rewrite Hanswer; reflexivity.
  - apply execute_user; assumption.
Qed.

(** C6: for every record stored under its id, [{ user(id) { id name } }]
    yields the very object that [GET /users/:id] sends for that id, and
    [{ users { id name } }] yields the very array that [GET /users]
    sends. *)
Theorem graphql_agrees_with_rest (req req' : Request)
    (user : User.t) (users : list User.t) :
  param "id" (params req) = Some (JS.decimal (User.id user)) ->
  findUnique prisma (JS.number_of_Z (User.id user)) = Fulfilled (Some user) ->
  findMany prisma = Fulfilled users ->
  (exists record : json,
      settled (getUserById prisma req freshResponse) =
        Fulfilled {| statusCode := 200; sent := Some (JsonBody record) |}
      /\ settled (execute prisma (QueryUser (User.id user) ["id"; "name"])) =
           Fulfilled (mkResult (Some (JObj [("user", record)])) []))
  /\ (exists records : list json,
      settled (getUsers prisma req' freshResponse) =
        Fulfilled {| statusCode := 200; sent := Some (JsonBody (JArr records)) |}
      /\ settled (execute prisma (QueryUsers ["id"; "name"])) =
           Fulfilled (mkResult (Some (JObj [("users", JArr records)])) [])).
Proof.
  intros Hseg Hfound Hall; split.
  - exists (JObj [("id", JNum (User.id user)); ("name", JStr (User.name user))]).
    split.
    + rewrite (getUserById_answer prisma req freshResponse _ _
                 (segment_denotes req _ Hseg) (number_of_Z_isNaN _) Hfound).
      reflexivity.
    + rewrite (execute_user (User.id user) ["id"; "name"] (Some user) eq_refl
                 (User.id_isInt user) Hfound).
      reflexivity.
  - exists (map (fun u => JObj [("id", JNum (User.id u));
                                ("name", JStr (User.name u))]) users).
    split.
    + rewrite (getUsers_answer prisma req' freshResponse users Hall); reflexivity.
    + rewrite (execute_users ["id"; "name"] users eq_refl Hall); reflexivity.
Qed.

End Resolvers.

(** Over HTTP: the envelope of [{ user(id: 1) { id name } }] carries the
    object that [GET /users/1] sends. *)
Example graphql_user_over_http :
  outcome (handleRequest (new_AppServer (tableClient sampleTable))
             (withOperation (QueryUser 1 ["id"; "name"]) (Some "https://example.com")))
  = Responded
      {| statusCode := 200;
         sent := Some (JsonBody
                         (JObj [("data",
                                 JObj [("user", JObj [("id", JNum 1);
                                                      ("name", JStr "Ada")])])])) |}.
Proof. vm_compute; reflexivity. Qed.

Lemma root_user_forwards_witness :
  validSelection ["id"; "name"] = true
  /\ isInt 99 = true
  /\ findUnique (tableClient sampleTable) (JS.number_of_Z 99) = Fulfilled None
  /\ root_user (tableClient sampleTable) (JS.number_of_Z 99)
     = ([FindUnique (JS.number_of_Z 99)], Fulfilled None)
  /\ execute (tableClient sampleTable) (QueryUser 99 ["id"; "name"])
     = ([FindUnique (JS.number_of_Z 99)],
        Fulfilled (mkResult (Some (JObj [("user", JNull)])) [])).
Proof.
  split; [reflexivity|].
  split; [reflexivity|].
  split; [vm_compute; reflexivity|].
  apply (root_user_forwards (tableClient sampleTable) 99 ["id"; "name"] None).
  - reflexivity.
  - reflexivity.
  - vm_compute; reflexivity.
Defined.

Lemma graphql_agrees_with_rest_witness :
  param "id" (params (withId "1")) = Some (JS.decimal 1)
  /\ findUnique (tableClient sampleTable) (JS.number_of_Z 1) = Fulfilled (Some ada)
  /\ findMany (tableClient sampleTable) = Fulfilled sampleTable
  /\ (exists record : json,
        settled (getUserById (tableClient sampleTable) (withId "1") freshResponse) =
          Fulfilled {| statusCode := 200; sent := Some (JsonBody record) |}
        /\ settled (execute (tableClient sampleTable) (QueryUser 1 ["id"; "name"])) =
             Fulfilled (mkResult (Some (JObj [("user", record)])) []))
  /\ (exists records : list json,
        settled (getUsers (tableClient sampleTable) (get ["users"] None) freshResponse) =
          Fulfilled {| statusCode := 200; sent := Some (JsonBody (JArr records)) |}
        /\ settled (execute (tableClient sampleTable) (QueryUsers ["id"; "name"])) =
             Fulfilled (mkResult (Some (JObj [("users", JArr records)])) [])).
Proof.
  split; [vm_compute; reflexivity|].
  split; [vm_compute; reflexivity|].
  split; [reflexivity|].
  apply (graphql_agrees_with_rest (tableClient sampleTable) (withId "1")
           (get ["users"] None) ada sampleTable).
  - vm_compute; reflexivity.
  - vm_compute; reflexivity.
  - reflexivity.
Defined.

(* ===================================================================== *)
(** ** The application as a whole *)
(* ===================================================================== *)

Section Application.

Variable client : PrismaClient.

(** The constructor registers the six layers in this order. *)
Lemma new_AppServer_layers :
  map layerName (app (new_AppServer client))
  = [CorsLayer; JsonLayer; UserByIdRoute; UsersRoute; GraphQLLayer; SwaggerLayer].
Proof. reflexivity. Qed.

(** C8: a request whose origin the policy denies ends at the policy
    layer with the error [No permitido por CORS]: no route handler and no
    endpoint runs, and storage is not read. *)
Theorem denied_origin_stops_at_policy (req : Request) :
  allows (headers_origin req) = false ->
  ran (handleRequest (new_AppServer client) req) = [CorsLayer]
  /\ existsb isHandler (ran (handleRequest (new_AppServer client) req)) = false
  /\ reads (handleRequest (new_AppServer client) req) = []
  /\ outcome (handleRequest (new_AppServer client) req)
     = ErrorPassed "No permitido por CORS".
Proof.
  intros Hdenied.
  assert (handleRequest (new_AppServer client) req
          = mkServed [CorsLayer] [] (ErrorPassed "No permitido por CORS")) as ->.
  { unfold handleRequest, new_AppServer, configureCors; simpl.
    unfold corsMiddleware; simpl.
    rewrite originPolicy_cases, Hdenied; reflexivity. }
  repeat split.
Qed.

(** An allowed request that is not a preflight passes the policy. *)
Lemma allowed_origin_passes_policy (req : Request) (res : Response) :
  allows (headers_origin req) = true ->
  String.eqb (method req) "OPTIONS" = false ->
  corsMiddleware req res = ret Next.
Proof.
  intros Hallowed Hmethod; unfold corsMiddleware.
  rewrite originPolicy_cases, Hallowed, Hmethod; reflexivity.
Qed.

(** The two routes recognise their paths. *)
Lemma matchUserById_get (origin : option string) (segment : string) :
  segment <> "" ->
  matchUserById (get ["users"; segment] origin) = Some [("id", segment)].
Proof.
  intros Hsegment; unfold matchUserById, get, isGet; cbn [path method].
  replace (String.eqb segment "") with false
    by (symmetry; apply String.eqb_neq, Hsegment).
  replace (segmentIs "users" "users") with true by (vm_compute; reflexivity).
  reflexivity.
Qed.

Lemma matchUsers_get (origin : option string) (segments : list string) :
  matchUsers (get segments origin)
  = match segments with
    | [users] => if segmentIs users "users" then Some [] else None
    | _ => None
    end.
Proof. destruct segments as [|users [|]]; reflexivity. Qed.

(** A GET of [/users/:id] from an allowed origin passes the policy and
    the body parser and ends in the handler of the route. *)
Lemma handleRequest_user_by_id (origin : option string) (segment : string) :
  allows origin = true ->
  segment <> "" ->
  handleRequest (new_AppServer client) (get ["users"; segment] origin)
  = match getUserById client
            (withParams [("id", segment)] (get ["users"; segment] origin))
            freshResponse with
    | (qs, Fulfilled res) =>
        mkServed [CorsLayer; JsonLayer; UserByIdRoute] qs (Responded res)
    | (qs, Rejected reason) =>
        mkServed [CorsLayer; JsonLayer; UserByIdRoute] qs (HandlerRejected reason)
    end.
Proof.
  intros Hallowed Hsegment.
  unfold handleRequest, new_AppServer, configureCors, configureMiddlewares,
    configureRestRoutes, configureGraphQL, configureSwagger.
  cbn [app List.app serve matchRequest handle layerName everyRequest].
  rewrite (allowed_origin_passes_policy
             (withParams [] (get ["users"; segment] origin)) _ Hallowed eq_refl).
  rewrite (matchUserById_get origin segment Hsegment).
  unfold route, bind.
  destruct (getUserById client _ freshResponse) as [qs [res|reason]];
    unfold ret, after, jsonMiddleware;
    cbn [bodyParses withParams get ran reads outcome List.app];
    rewrite ?List.app_nil_r; reflexivity.
Qed.

(** A GET of [/users] from an allowed origin ends in the handler of that
    route. *)
Lemma handleRequest_users (origin : option string) :
  allows origin = true ->
  handleRequest (new_AppServer client) (get ["users"] origin)
  = match getUsers client (withParams [] (get ["users"] origin)) freshResponse with
    | (qs, Fulfilled res) =>
        mkServed [CorsLayer; JsonLayer; UsersRoute] qs (Responded res)
    | (qs, Rejected reason) =>
        mkServed [CorsLayer; JsonLayer; UsersRoute] qs (HandlerRejected reason)
    end.
Proof.
  intros Hallowed.
  unfold handleRequest, new_AppServer, configureCors, configureMiddlewares,
    configureRestRoutes, configureGraphQL, configureSwagger.
  cbn [app List.app serve matchRequest handle layerName everyRequest].
  rewrite (allowed_origin_passes_policy
             (withParams [] (get ["users"] origin)) _ Hallowed eq_refl).
  assert (matchUserById (get ["users"] origin) = None) as -> by reflexivity.
  rewrite matchUsers_get.
  replace (segmentIs "users" "users") with true by (vm_compute; reflexivity).
  unfold route, bind.
  destruct (getUsers client _ freshResponse) as [qs [res|reason]];
    unfold ret, after, jsonMiddleware;
    cbn [bodyParses withParams get ran reads outcome List.app];
    rewrite ?List.app_nil_r; reflexivity.
Qed.

End Application.

Lemma denied_origin_stops_at_policy_witness :
  allows (headers_origin (get ["users"; "1"] (Some "http://evil.com"))) = false
  /\ ran (handleRequest (new_AppServer (tableClient sampleTable))
            (get ["users"; "1"] (Some "http://evil.com"))) = [CorsLayer]
  /\ existsb isHandler
       (ran (handleRequest (new_AppServer (tableClient sampleTable))
               (get ["users"; "1"] (Some "http://evil.com")))) = false
  /\ reads (handleRequest (new_AppServer (tableClient sampleTable))
              (get ["users"; "1"] (Some "http://evil.com"))) = []
  /\ outcome (handleRequest (new_AppServer (tableClient sampleTable))
                (get ["users"; "1"] (Some "http://evil.com")))
     = ErrorPassed "No permitido por CORS".
Proof.
  split; [reflexivity|].
  apply (denied_origin_stops_at_policy (tableClient sampleTable)
           (get ["users"; "1"] (Some "http://evil.com"))).
  reflexivity.
Defined.

(** The two requests of the spec's example: the one from
    [http://evil.com] is refused at the policy, the one from
    [https://example.com] is served. *)
Example evil_origin_refused :
  handleRequest (new_AppServer (tableClient sampleTable))
    (get ["users"; "1"] (Some "http://evil.com"))
  = mkServed [CorsLayer] [] (ErrorPassed "No permitido por CORS").
Proof. vm_compute; reflexivity. Qed.

(** The example of the spec: storage holds [{ id: 1, name: "Ada" }];
    [GET /users/1] gives 200 with that record, [GET /users/99] gives 404
    and [GET /users/foo] gives 400. *)
Example spec_example :
  let server := new_AppServer (tableClient [ada]) in
  outcome (handleRequest server (get ["users"; "1"] None))
  = Responded {| statusCode := 200;
                 sent := Some (JsonBody (JObj [("id", JNum 1);
                                               ("name", JStr "Ada")])) |}
  /\ outcome (handleRequest server (get ["users"; "99"] None))
     = Responded {| statusCode := 404;
                    sent := Some (JsonBody
                                    (JObj [("error", JStr "Usuario no encontrado")])) |}
  /\ outcome (handleRequest server (get ["users"; "foo"] None))
     = Responded {| statusCode := 400;
                    sent := Some (JsonBody (JObj [("error", JStr "ID inválido")])) |}.
Proof. vm_compute; repeat split. Qed.

Example listed_origin_served :
  handleRequest (new_AppServer (tableClient sampleTable))
    (get ["users"; "1"] (Some "https://example.com"))
  = mkServed [CorsLayer; JsonLayer; UserByIdRoute]
      [FindUnique (JS.number_of_Z 1)]
      (Responded {| statusCode := 200;
                    sent := Some (JsonBody (JObj [("id", JNum 1);
                                                  ("name", JStr "Ada")])) |}).
Proof. vm_compute; reflexivity. Qed.

(* ===================================================================== *)
(** ** Startup *)
(* ===================================================================== *)

(** C9: when the storage connection cannot be established, [start] ends
    the process with the non-zero status 1 and never listens; when it is
    established, [start] listens on the port it was given, 3000 when
    none was given, and the entry point asks for 3000. *)
Theorem start_exits_or_listens (server : AppServer) (port : option Z) :
  match connect (prisma server) with
  | Rejected _ =>
      exitStatus (start server port) = Some 1
      /\ 1 <> 0
      /\ listening (start server port) = []
  | Fulfilled _ =>
      exitStatus (start server port) = None
      /\ listening (start server port)
         = [match port with Some p => p | None => 3000 end]
      /\ listening (start server None) = [3000]
      /\ main (prisma server) = start (new_AppServer (prisma server)) (Some 3000)
  end.
Proof.
  unfold main, start; simpl.
  destruct (connect (prisma server)) as [[]|err]; simpl.
  - repeat split.
  - repeat split; discriminate.
Qed.

Example main_connected :
  main (tableClient sampleTable)
  = [Connect; Listen 3000;
     ConsoleLog "Servidor corriendo en http://localhost:3000";
     ConsoleLog "Swagger: http://localhost:3000/api-docs";
     ConsoleLog "GraphQL: http://localhost:3000/graphql"].
Proof. reflexivity. Qed.

Example main_unreachable :
  main (unreachableClient "ECONNREFUSED")
  = [Connect; ConsoleError "Error al iniciar:" "ECONNREFUSED"; Exit 1].
Proof. reflexivity. Qed.

(* ===================================================================== *)
(** ** The published document *)
(* ===================================================================== *)

(** C10: the document that the viewer serves declares the responses 200
    and 404 for [GET /users/{id}] and no 400, although the handler of
    that route answers 400 to a segment such as [abc]. *)
Theorem openApiSpec_omits_400 :
  declaredResponses openApiSpec "/users/{id}" "get" = ["200"; "404"]
  /\ ~ In "400" (declaredResponses openApiSpec "/users/{id}" "get")
  /\ (forall (req : Request) (res : Response),
        settled (swaggerMiddleware req res)
        = Fulfilled (Done {| statusCode := statusCode res;
                             sent := Some (ViewerBody openApiSpec) |}))
  /\ (forall prisma : PrismaClient,
        exists body : json,
          getUserById prisma (withId "abc") freshResponse
          = ([], Fulfilled {| statusCode := 400; sent := Some (JsonBody body) |})).
Proof.
  split; [reflexivity|].
  split.
  { vm_compute; intros [H|[H|[]]]; discriminate. }
  split; [reflexivity|].
  intros prisma; eexists.
  unfold getUserById; reflexivity.
Qed.

(* ===================================================================== *)
(** ** The singleton *)
(* ===================================================================== *)

Lemma getInstances_set (clients : list PrismaClient) (server : AppServer) :
  getInstances clients (Some server)
  = (repeat server (length clients), Some server).
Proof.
  induction clients as [|client rest IH]; [reflexivity|].
  cbn [getInstances getInstance]; rewrite IH; reflexivity.
Qed.

(** X1: however often [getInstance] is called, every call returns the
    server of the first call, the constructor runs at most once (for the
    first call, when the static field was still unset), and the field
    holds that server afterwards. *)
Theorem getInstances_singleton (client : PrismaClient)
    (rest : list PrismaClient) (instance : option AppServer) :
  getInstances (client :: rest) instance
  = (repeat (match instance with
             | Some server => server
             | None => new_AppServer client
             end) (S (length rest)),
     Some (match instance with
           | Some server => server
           | None => new_AppServer client
           end)).
Proof.
  cbn [getInstances].
  destruct instance as [server|]; cbn [getInstance];
    rewrite getInstances_set; reflexivity.
Qed.

(* ===================================================================== *)
(** ** What the REST handlers answer, and when *)
(* ===================================================================== *)

Section RestOutcomes.

Variable prisma : PrismaClient.

(** X2: whatever [GET /users/:id] answers is one of three things: 400
    with the invalid-id payload, for an id that is NaN and without a
    storage read; 200 with [{ id, name }] of a record that [findUnique]
    returned for the converted id; or 404 with the not-found payload,
    when [findUnique] returned null.  No other status is sent. *)
Theorem getUserById_answers (req : Request) (res : Response) :
  settled (getUserById prisma req freshResponse) = Fulfilled res ->
  (res = {| statusCode := 400;
            sent := Some (JsonBody (JObj [("error", JStr "ID inválido")])) |}
   /\ JS.isNaN (JS.Number (param "id" (params req))) = true
   /\ queries (getUserById prisma req freshResponse) = [])
  \/ (exists user : User.t,
        findUnique prisma (JS.Number (param "id" (params req)))
        = Fulfilled (Some user)
        /\ res = {| statusCode := 200;
                    sent := Some (JsonBody (JObj [("id", JNum (User.id user));
                                                  ("name", JStr (User.name user))])) |})
  \/ (findUnique prisma (JS.Number (param "id" (params req))) = Fulfilled None
      /\ res = {| statusCode := 404;
                  sent := Some (JsonBody
                                  (JObj [("error", JStr "Usuario no encontrado")])) |}).
Proof.
  unfold getUserById.
  destruct (JS.isNaN (JS.Number (param "id" (params req)))) eqn:Hnan.
  - intros H; injection H as <-; left; repeat split.
  - unfold bind, prisma_user_findUnique, settled, queries.
    destruct (findUnique prisma _) as [[user|]|reason] eqn:Hfind;
      cbn; intros H; try discriminate; injection H as <-.
    + right; left; exists user; split; reflexivity.
    + right; right; split; reflexivity.
Qed.

(** X3: a segment that [Number] reads as the integer [z], in whatever
    notation, is answered exactly like the decimal segment of [z]. *)
Theorem getUserById_notation_irrelevant (req req' : Request) (res : Response)
    (z : Z) :
  JS.Number (param "id" (params req)) = JS.number_of_Z z ->
  param "id" (params req') = Some (JS.decimal z) ->
  getUserById prisma req res = getUserById prisma req' res.
Proof.
  intros Hany Hdecimal; unfold getUserById.
  rewrite Hany, Hdecimal, Number_decimal; reflexivity.
Qed.

(** X4: the handlers do not catch a storage failure: when the read of
    [GET /users/:id] (for an id that is a number) or of [GET /users]
    rejects, the handler has made that one read, sends nothing and its
    promise rejects with the same reason. *)
Theorem rest_handlers_reject_with_storage (req : Request) (res : Response)
    (reason : string) :
  JS.isNaN (JS.Number (param "id" (params req))) = false ->
  findUnique prisma (JS.Number (param "id" (params req))) = Rejected reason ->
  findMany prisma = Rejected reason ->
  getUserById prisma req res
  = ([FindUnique (JS.Number (param "id" (params req)))], Rejected reason)
  /\ getUsers prisma req res = ([FindMany], Rejected reason).
Proof.
  intros Hnum Hone Hall; split.
  - unfold getUserById; rewrite Hnum.
    unfold bind, prisma_user_findUnique; rewrite Hone; reflexivity.
  - unfold getUsers, bind, prisma_user_findMany; rewrite Hall; reflexivity.
Qed.

End RestOutcomes.

Lemma getUserById_answers_witness :
  settled (getUserById (tableClient sampleTable) (withId "16") freshResponse)
  = Fulfilled {| statusCode := 200;
                 sent := Some (JsonBody (JObj [("id", JNum 16);
                                               ("name", JStr "Grace")])) |}
  /\ exists user : User.t,
       findUnique (tableClient sampleTable)
         (JS.Number (param "id" (params (withId "16"))))
       = Fulfilled (Some user)
       /\ User.id user = 16.
Proof.
  split; [vm_compute; reflexivity|].
  destruct (getUserById_answers (tableClient sampleTable) (withId "16")
              {| statusCode := 200;
                 sent := Some (JsonBody (JObj [("id", JNum 16);
                                               ("name", JStr "Grace")])) |})
    as [[H _]|[[user [Hfind Hres]]|[_ H]]].
  - vm_compute; reflexivity.
  - discriminate H.
  - exists user; split; [exact Hfind|].
    injection Hres as Hid _; symmetry; exact Hid.
  - discriminate H.
Defined.

Lemma getUserById_notation_irrelevant_witness :
  JS.Number (param "id" (params (withId "0x10"))) = JS.number_of_Z 16
  /\ param "id" (params (withId "16")) = Some (JS.decimal 16)
  /\ getUserById (tableClient sampleTable) (withId "0x10") freshResponse
     = getUserById (tableClient sampleTable) (withId "16") freshResponse.
Proof.
  split; [vm_compute; reflexivity|].
  split; [reflexivity|].
  apply (getUserById_notation_irrelevant (tableClient sampleTable)
           (withId "0x10") (withId "16") freshResponse 16).
  - vm_compute; reflexivity.
  - reflexivity.
Defined.

Lemma rest_handlers_reject_with_storage_witness :
  JS.isNaN (JS.Number (param "id" (params (withId "1")))) = false
  /\ findUnique (unreachableClient "ECONNREFUSED")
       (JS.Number (param "id" (params (withId "1")))) = Rejected "ECONNREFUSED"
  /\ findMany (unreachableClient "ECONNREFUSED") = Rejected "ECONNREFUSED"
  /\ getUserById (unreachableClient "ECONNREFUSED") (withId "1") freshResponse
     = ([FindUnique (JS.Number (param "id" (params (withId "1"))))],
        Rejected "ECONNREFUSED")
  /\ getUsers (unreachableClient "ECONNREFUSED") (withId "1") freshResponse
     = ([FindMany], Rejected "ECONNREFUSED").
Proof.
  split; [vm_compute; reflexivity|].
  split; [reflexivity|].
  split; [reflexivity|].
  apply (rest_handlers_reject_with_storage (unreachableClient "ECONNREFUSED")
           (withId "1") freshResponse "ECONNREFUSED");
    [vm_compute; reflexivity|reflexivity|reflexivity].
Defined.

(* ===================================================================== *)
(** ** Storage reads of a request *)
(* ===================================================================== *)

Section Reads.


Variable client : PrismaClient.









End Reads.


(* ===================================================================== *)
(** ** Requests that no route handler answers *)
(* ===================================================================== *)

Section Unrouted.

Variable client : PrismaClient.

(** Past the policy and the body parser, a request that none of the
    four routes recognises is left unanswered. *)
Lemma unrouted_unanswered (req : Request) :
  allows (headers_origin req) = true ->
  String.eqb (method req) "OPTIONS" = false ->
  bodyParses req = true ->
  matchUserById req = None ->
  matchUsers req = None ->
  mountedAt "graphql" req = None ->
  mountedAt "api-docs" req = None ->
  handleRequest (new_AppServer client) req
  = mkServed [CorsLayer; JsonLayer] [] Unanswered.
Proof.
  intros Hallowed Hmethod Hbody Hid Hall Hgraphql Hdocs.
  unfold handleRequest, new_AppServer, configureCors, configureMiddlewares,
    configureRestRoutes, configureGraphQL, configureSwagger.
  cbn [app List.app serve matchRequest handle layerName everyRequest].
  rewrite (allowed_origin_passes_policy (withParams [] req) _ Hallowed Hmethod).
  unfold jsonMiddleware; cbn [bodyParses withParams]; rewrite Hbody.
  rewrite Hid, Hall, Hgraphql, Hdocs; reflexivity.
Qed.

(** X6: an allowed preflight (method OPTIONS) is answered by the policy
    layer alone, with [optionsSuccessStatus] 200 and an empty body; no
    route handler runs and storage is not read. *)
Theorem preflight_ends_at_policy (req : Request) :
  allows (headers_origin req) = true ->
  method req = "OPTIONS" ->
  handleRequest (new_AppServer client) req
  = mkServed [CorsLayer] []
      (Responded {| statusCode := 200; sent := Some EmptyBody |}).
Proof.
  intros Hallowed Hmethod.
  unfold handleRequest, new_AppServer, configureCors; simpl.
  unfold corsMiddleware; simpl.
  rewrite originPolicy_cases, Hallowed, Hmethod; reflexivity.
Qed.

(** X7: the REST routes are GET routes only: a request of any other
    method (HEAD and preflights apart) that is not addressed to
    [/graphql] or [/api-docs] is answered by no layer and reads nothing,
    whatever its path: there is no way to write through [/users]. *)
Theorem other_methods_unanswered (req : Request) :
  allows (headers_origin req) = true ->
  bodyParses req = true ->
  isGet req = false ->
  String.eqb (method req) "OPTIONS" = false ->
  mountedAt "graphql" req = None ->
  mountedAt "api-docs" req = None ->
  handleRequest (new_AppServer client) req
  = mkServed [CorsLayer; JsonLayer] [] Unanswered.
Proof.
  intros Hallowed Hbody Hget Hmethod Hgraphql Hdocs.
  apply unrouted_unanswered; try assumption.
  - unfold matchUserById; rewrite Hget.
    destruct (path req) as [|a [|b [|c rest]]]; reflexivity.
  - unfold matchUsers; rewrite Hget.
    destruct (path req) as [|a [|b rest]]; reflexivity.
Qed.


(** The decimal writing of an integer is not empty. *)
Lemma decimal_nonempty (z : Z) : JS.decimal z <> "".
Proof.
  unfold JS.decimal, NilZero.string_of_int, NilZero.string_of_uint.
  destruct z as [|p|p]; cbn [Z.to_int]; try discriminate;
    destruct (Pos.to_uint p); discriminate.
Qed.

(** X9: end to end, a GET of [/users/z] from an allowed origin runs the
    policy, the body parser and the route, in this order, reads storage
    once for [z], and, [z] being stored, is answered 200 with
    [{ id, name }] of the record. *)
Theorem get_user_end_to_end (origin : option string) (z : Z) (user : User.t) :
  allows origin = true ->
  findUnique client (JS.number_of_Z z) = Fulfilled (Some user) ->
  handleRequest (new_AppServer client) (get ["users"; JS.decimal z] origin)
  = mkServed [CorsLayer; JsonLayer; UserByIdRoute]
      [FindUnique (JS.number_of_Z z)]
      (Responded {| statusCode := 200;
                    sent := Some (JsonBody (JObj [("id", JNum (User.id user));
                                                  ("name", JStr (User.name user))])) |}).
Proof.
  intros Hallowed Hfound.
  rewrite (handleRequest_user_by_id client origin (JS.decimal z) Hallowed
             (decimal_nonempty z)).
  rewrite (getUserById_answer client
             (withParams [("id", JS.decimal z)] (get ["users"; JS.decimal z] origin))
             freshResponse (JS.number_of_Z z)
             (Some user) (Number_decimal z) (number_of_Z_isNaN z) Hfound).
  reflexivity.
Qed.

End Unrouted.

Lemma preflight_ends_at_policy_witness :
  allows (headers_origin (request "OPTIONS" ["users"; "1"] (Some "https://example.com")))
  = true
  /\ method (request "OPTIONS" ["users"; "1"] (Some "https://example.com")) = "OPTIONS"
  /\ handleRequest (new_AppServer (tableClient sampleTable))
       (request "OPTIONS" ["users"; "1"] (Some "https://example.com"))
     = mkServed [CorsLayer] []
         (Responded {| statusCode := 200; sent := Some EmptyBody |}).
Proof.
  split; [reflexivity|].
  split; [reflexivity|].
  apply (preflight_ends_at_policy (tableClient sampleTable)
           (request "OPTIONS" ["users"; "1"] (Some "https://example.com")));
    reflexivity.
Defined.

Lemma other_methods_unanswered_witness :
  allows (headers_origin (request "DELETE" ["users"; "1"] None)) = true
  /\ bodyParses (request "DELETE" ["users"; "1"] None) = true
  /\ isGet (request "DELETE" ["users"; "1"] None) = false
  /\ String.eqb (method (request "DELETE" ["users"; "1"] None)) "OPTIONS" = false
  /\ mountedAt "graphql" (request "DELETE" ["users"; "1"] None) = None
  /\ mountedAt "api-docs" (request "DELETE" ["users"; "1"] None) = None
  /\ handleRequest (new_AppServer (tableClient sampleTable))
       (request "DELETE" ["users"; "1"] None)
     = mkServed [CorsLayer; JsonLayer] [] Unanswered.
Proof.
  repeat (split; [vm_compute; reflexivity|]).
  apply (other_methods_unanswered (tableClient sampleTable)
           (request "DELETE" ["users"; "1"] None));
    vm_compute; reflexivity.
Defined.


Lemma get_user_end_to_end_witness :
  allows (Some "https://example.com") = true
  /\ findUnique (tableClient sampleTable) (JS.number_of_Z 16) = Fulfilled (Some grace)
  /\ handleRequest (new_AppServer (tableClient sampleTable))
       (get ["users"; JS.decimal 16] (Some "https://example.com"))
     = mkServed [CorsLayer; JsonLayer; UserByIdRoute]
         [FindUnique (JS.number_of_Z 16)]
         (Responded {| statusCode := 200;
                       sent := Some (JsonBody (JObj [("id", JNum 16);
                                                     ("name", JStr "Grace")])) |}).
Proof.
  split; [reflexivity|].
  split; [vm_compute; reflexivity|].
  apply (get_user_end_to_end (tableClient sampleTable)
           (Some "https://example.com") 16 grace);
    vm_compute; reflexivity.
Defined.

(* ===================================================================== *)
(** ** What the GraphQL endpoint exposes and reports *)
(* ===================================================================== *)

Section GraphQLExposure.

Variable prisma : PrismaClient.





End GraphQLExposure.



(* ===================================================================== *)
(** ** The document against the handlers *)
(* ===================================================================== *)

Section Document.

Variable prisma : PrismaClient.

(** X12: the objects the REST handlers send on success have exactly the
    properties that the document declares for its [User] schema, in the
    declared order: the body of a 200 of [GET /users/:id], and every
    element of the array of [GET /users]. *)
Theorem rest_bodies_have_documented_properties (req req' : Request)
    (res res' : Response) :
  settled (getUserById prisma req freshResponse) = Fulfilled res ->
  statusCode res = 200 ->
  settled (getUsers prisma req' freshResponse) = Fulfilled res' ->
  (exists fields : list (string * json),
      sent res = Some (JsonBody (JObj fields))
      /\ keys fields = declaredProperties openApiSpec "User")
  /\ (exists items : list json,
        sent res' = Some (JsonBody (JArr items))
        /\ Forall (fun item =>
                     exists fields : list (string * json),
                       item = JObj fields
                       /\ keys fields = declaredProperties openApiSpec "User")
                  items).
Proof.
  intros Hone Hstatus Hall; split.
  - revert Hone; unfold getUserById.
    destruct (JS.isNaN _).
    + intros H; injection H as <-; discriminate Hstatus.
    + unfold bind, prisma_user_findUnique, settled.
      destruct (findUnique prisma _) as [[user|]|reason]; cbn; intros H;
        try discriminate H; injection H as <-; [|discriminate Hstatus].
      eexists; split; reflexivity.
  - revert Hall; unfold getUsers, bind, prisma_user_findMany, settled.
    destruct (findMany prisma) as [users|reason]; cbn; intros H;
      [injection H as <-|discriminate H].
    eexists; split; [reflexivity|].
    apply Forall_forall; intros item Hitem.
    apply in_map_iff in Hitem as (u & <- & _).
    eexists; split; reflexivity.
Qed.

(** X13: apart from the 400 of [GET /users/:id], the document declares
    every status the REST handlers send: a response of the first route
    has status 400 or one declared for [/users/{id}], and a response of
    the second has a status declared for [/users]. *)
Theorem rest_statuses_are_documented (req req' : Request) (res res' : Response) :
  settled (getUserById prisma req freshResponse) = Fulfilled res ->
  settled (getUsers prisma req' freshResponse) = Fulfilled res' ->
  In (JS.decimal (statusCode res))
     ("400" :: declaredResponses openApiSpec "/users/{id}" "get")
  /\ In (JS.decimal (statusCode res'))
       (declaredResponses openApiSpec "/users" "get").
Proof.
  intros Hone Hall; split.
  - revert Hone; unfold getUserById.
    destruct (JS.isNaN _).
    + intros H; injection H as <-; left; reflexivity.
    + unfold bind, prisma_user_findUnique, settled.
      destruct (findUnique prisma _) as [[user|]|reason]; cbn -[In]; intros H;
        try discriminate H; injection H as <-.
      * right; left; reflexivity.
      * right; right; left; reflexivity.
  - revert Hall; unfold getUsers, bind, prisma_user_findMany, settled.
    destruct (findMany prisma) as [users|reason]; cbn -[In]; intros H;
      [injection H as <-|discriminate H].
    left; reflexivity.
Qed.

End Document.

Lemma rest_bodies_have_documented_properties_witness :
  exists res res' : Response,
    settled (getUserById (tableClient sampleTable) (withId "1") freshResponse)
    = Fulfilled res
    /\ statusCode res = 200
    /\ settled (getUsers (tableClient sampleTable) (get ["users"] None) freshResponse)
       = Fulfilled res'
    /\ (exists fields : list (string * json),
          sent res = Some (JsonBody (JObj fields))
          /\ keys fields = ["id"; "name"])
    /\ (exists items : list json,
          sent res' = Some (JsonBody (JArr items))
          /\ Forall (fun item =>
                       exists fields : list (string * json),
                         item = JObj fields
                         /\ keys fields = ["id"; "name"])
                    items).
Proof.
  eexists; eexists.
  split; [vm_compute; reflexivity|].
  split; [reflexivity|].
  split; [vm_compute; reflexivity|].
  apply (rest_bodies_have_documented_properties (tableClient sampleTable)
           (withId "1") (get ["users"] None));
    [vm_compute; reflexivity|reflexivity|vm_compute; reflexivity].
Defined.

Lemma rest_statuses_are_documented_witness :
  exists res res' : Response,
    settled (getUserById (tableClient sampleTable) (withId "99") freshResponse)
    = Fulfilled res
    /\ settled (getUsers (tableClient sampleTable) (get ["users"] None) freshResponse)
       = Fulfilled res'
    /\ In (JS.decimal (statusCode res))
          ("400" :: declaredResponses openApiSpec "/users/{id}" "get")
    /\ In (JS.decimal (statusCode res'))
          (declaredResponses openApiSpec "/users" "get").
Proof.
  eexists; eexists.
  split; [vm_compute; reflexivity|].
  split; [vm_compute; reflexivity|].
  apply (rest_statuses_are_documented (tableClient sampleTable)
           (withId "99") (get ["users"] None));
    vm_compute; reflexivity.
Defined.

(* ===================================================================== *)
(** ** Ids outside the range of [Int] *)
(* ===================================================================== *)

(** X14: the two surfaces part on integers that are not [Int] values:
    [GET /users/z] still reads storage for [z], while a [user(id: z)]
    query is refused with no data and no storage read. *)
Theorem large_id_rest_reads_graphql_refuses (prisma : PrismaClient)
    (req : Request) (res : Response) (z : Z) (selection : list string) :
  isInt z = false ->
  param "id" (params req) = Some (JS.decimal z) ->
  queries (getUserById prisma req res) = [FindUnique (JS.number_of_Z z)]
  /\ exists reasons : list string,
       execute prisma (QueryUser z selection)
       = ([], Fulfilled (mkResult None reasons)).
Proof.
  intros Hlarge Hseg; split.
  - rewrite (getUserById_reads_storage prisma req res);
      rewrite Hseg, Number_decimal; [reflexivity|apply number_of_Z_isNaN].
  - unfold execute; rewrite Hlarge, andb_false_r.
    eexists; reflexivity.
Qed.

Lemma large_id_rest_reads_graphql_refuses_witness :
  isInt 2147483648 = false
  /\ param "id" (params (withId "2147483648")) = Some (JS.decimal 2147483648)
  /\ queries (getUserById (tableClient sampleTable) (withId "2147483648")
                freshResponse)
     = [FindUnique (JS.number_of_Z 2147483648)]
  /\ exists reasons : list string,
       execute (tableClient sampleTable) (QueryUser 2147483648 ["id"])
       = ([], Fulfilled (mkResult None reasons)).
Proof.
  split; [reflexivity|].
  split; [reflexivity|].
  apply (large_id_rest_reads_graphql_refuses (tableClient sampleTable)
           (withId "2147483648") freshResponse 2147483648 ["id"]);
    reflexivity.
Defined.
